(** * HeroSection: the statistics panel of the landing page

    A shallow embedding of
    [src/frontend/src/components/home/HeroSection.jsx]: the three React
    state cells of the component, the asynchronous [fetchStatistics]
    handler, the mount effect, and the JSX of the right-hand column
    (loading placeholder, error panel, success panel with the three
    counters and the preview cards).

    Conventions of the embedding.
    - A JS object is a record; [null] is [None].  An object is truthy,
      [null] is falsy, a string is truthy unless it is empty.
    - The component's hooks are state cells; a handler is a computation
      in the [Hook] monad, which threads the component and appends every
      setter call and every call to a collaborator to a log, oldest first.
    - [await getStatistics()] cuts [fetchStatistics] in two: the part that
      runs up to the [await], and the continuation that runs when the
      promise settles.  React commits the setter calls of each part in one
      render (updates issued in one task are batched).
    - Reading a property of [null] throws; rendering is therefore written
      in the [result] monad, where it can fail with [TypeError]. *)

From Stdlib Require Import ZArith String Bool Lia.
From stdpp Require Import base list strings.

Local Open Scope string_scope.
Local Open Scope list_scope.

(** ** Data model *)

(** The object returned by the statistics service; the component reads
    [total_dogs], [total_organizations] and [countries.length]. *)
Record Statistics := {
  total_dogs : Z;
  total_organizations : Z;
  countries : list string;
}.

(** A preview dog: the component reads [dog.id] and forwards the record. *)
Module Dog.
Record t := { id : Z; fields : list (string * string) }.
End Dog.

(** Props of the component, with the defaults of lines 18-19. *)
Record Props := {
  initialStatistics : option Statistics;
  previewDogs : list Dog.t;
}.

Definition default_props : Props :=
  {| initialStatistics := None; previewDogs := [] |}.

(** The three [useState] cells (lines 21-23). *)
Record State := {
  statistics : option Statistics;
  loading : bool;
  error : option string;
}.

(** Modelled from the spec: the errors of the imported service
    [getStatistics] (services/animalsService), whose code is not
    available.  Its failure "surfaces as a thrown/rejected error with a
    message field"; [name] stands for the kind of the error. *)
Record JsError := { name : string; message : string }.

(** Modelled from the spec: how the promise of [getStatistics] settles,
    with "an object with total_dogs, total_organizations, countries" or
    with an error. *)
Inductive Outcome :=
| Resolved (stats : Statistics)
| Rejected (err : JsError).

(** JS truthiness of the values the component tests. *)
Definition truthy {A} (o : option A) : bool :=
  match o with Some _ => true | None => false end.

Definition truthy_str (e : option string) : bool :=
  match e with
  | Some s => negb (String.eqb s "")
  | None => false
  end.

(** ** The component instance and its handlers *)

(** What a handler does, in the order it does it. *)
Inductive Effect :=
| SetStatistics (s : option Statistics)
| SetLoading (b : bool)
| SetError (e : option string)
| GetStatistics
| ReportError (label : string) (context : list (string * string)).

Record Component := {
  ui : State;
  props : Props;
  pending : nat;        (* promises of getStatistics not settled yet *)
  log : list Effect;
}.

Definition Hook (A : Type) : Type := Component -> A * Component.

Definition ret {A} (a : A) : Hook A := fun c => (a, c).

Definition bind {A B} (h : Hook A) (k : A -> Hook B) : Hook B :=
  fun c => let (a, c') := h c in k a c'.

Definition exec {A} (h : Hook A) (c : Component) : Component := snd (h c).

Declare Scope hook_scope.
Delimit Scope hook_scope with hook.
Notation "h1 ;; h2" := (bind h1 (fun _ => h2))
  (at level 100, h2 at level 200, right associativity) : hook_scope.

Definition record (e : Effect) (c : Component) : Component :=
  {| ui := ui c; props := props c; pending := pending c;
     log := log c ++ [e] |}.

Definition with_ui (st : State) (c : Component) : Component :=
  {| ui := st; props := props c; pending := pending c; log := log c |}.

Definition setStatistics (s : option Statistics) : Hook unit := fun c =>
  (tt, record (SetStatistics s)
         (with_ui {| statistics := s; loading := loading (ui c);
                     error := error (ui c) |} c)).

Definition setLoading (b : bool) : Hook unit := fun c =>
  (tt, record (SetLoading b)
         (with_ui {| statistics := statistics (ui c); loading := b;
                     error := error (ui c) |} c)).

Definition setError (e : option string) : Hook unit := fun c =>
  (tt, record (SetError e)
         (with_ui {| statistics := statistics (ui c); loading := loading (ui c);
                     error := e |} c)).

(** Calling the service starts one more promise. *)
Definition getStatistics : Hook unit := fun c =>
  (tt, record GetStatistics
         {| ui := ui c; props := props c; pending := S (pending c);
            log := log c |}).

Definition reportError (label : string) (context : list (string * string))
  : Hook unit := fun c => (tt, record (ReportError label context) c).

Definition error_label : string := "Error fetching statistics".

Definition error_message : string :=
  "Unable to load statistics. Please try again later.".

(** [fetchStatistics], lines 26-29: the [try] block up to the [await]. *)
Definition fetchStatistics_call : Hook unit :=
  (setLoading true ;;
   setError None ;;
   getStatistics)%hook.

(** [fetchStatistics], lines 30-36: what runs once the promise settles.
    A resolved promise continues the [try] block, a rejected one enters
    [catch]; [finally] runs after either. *)
Definition fetchStatistics_resume (o : Outcome) : Hook unit :=
  (match o with
   | Resolved stats => setStatistics (Some stats)
   | Rejected err =>
       reportError error_label [("error", message err)] ;;
       setError (Some error_message)
   end ;;
   setLoading false)%hook.

(** The effect of lines 39-43. *)
Definition useEffect : Hook unit := fun c =>
  if negb (truthy (initialStatistics (props c)))
  then fetchStatistics_call c
  else ret tt c.

(** The first render: the initial values of the three cells. *)
Definition initial_state (p : Props) : State :=
  {| statistics := initialStatistics p;
     loading := negb (truthy (initialStatistics p));
     error := None |}.

Definition first_render (p : Props) : Component :=
  {| ui := initial_state p; props := p; pending := 0; log := [] |}.

(** Mounting: the first render, then the effect. *)
Definition mount (p : Props) : Component := exec useEffect (first_render p).

(** The number of requests sent to the statistics service so far. *)
Definition is_request (e : Effect) : bool :=
  match e with GetStatistics => true | _ => false end.

Definition requests (c : Component) : nat :=
  length (filter (fun e => is_request e = true) (log c)).

(** ** The view *)

(** A [next/link] element: target and text. *)
Record Link := { href : string; text : string }.

(** Props handed to [AnimatedCounter]. *)
Record Counter := { value : Z; label : string }.

(** Props handed to [HeroDogPreviewCard], and its list key. *)
Record Card := { key : Z; dog : Dog.t; index : nat; priority : bool }.

(** The [onClick] handlers a button of this component can carry. *)
Inductive Handler := FetchStatistics.

(** The preview area, lines 148-168: cards, or the link to the listing. *)
Inductive Preview :=
| PreviewCards (cards : list Card)
| BrowseAll (link : Link).

(** The three blocks of the right-hand column, lines 81-171. *)
Inductive Panel :=
| LoadingPlaceholder
| ErrorPanel (shown : string) (onClick : Handler)
| SuccessPanel (counters : list Counter) (preview : Preview).

Record View := {
  cta : list Link;          (* the two buttons of the left column *)
  column : list Panel;      (* what the right column contains, in order *)
}.

(** Evaluation of JSX can throw. *)
Inductive result (A : Type) :=
| Ok (a : A)
| TypeError (what : string).
Arguments Ok {A} a.
Arguments TypeError {A} what.

#[global] Instance result_ret : MRet result := fun A a => Ok a.
#[global] Instance result_bind : MBind result := fun A B k r =>
  match r with
  | Ok a => k a
  | TypeError what => TypeError what
  end.

(** [o.f]: reading a property of [null] throws. *)
Definition read {A} (o : option Statistics) (f : Statistics -> A) : result A :=
  match o with
  | Some s => Ok (f s)
  | None => TypeError "Cannot read properties of null"
  end.

(** [previewDogs.slice(0, 3).map((dog, index) => ...)], lines 150-157. *)
Definition preview_cards (dogs : list Dog.t) : list Card :=
  imap (fun index dog =>
          {| key := Dog.id dog; dog := dog; index := index;
             priority := Nat.eqb index 0 |})
       (take 3 dogs).

Definition gallery_link : Link :=
  {| href := "/gallery"; text := "Browse all dogs →" |}.

(** The conditional of lines 148-168. *)
Definition preview_area (dogs : list Dog.t) : Preview :=
  if Nat.ltb 0 (length dogs)
  then PreviewCards (preview_cards dogs)
  else BrowseAll gallery_link.

(** The block of lines 96-171: the guard, then the JSX, which is only
    evaluated when the guard holds. *)
Definition success_block (p : Props) (st : State) : result (list Panel) :=
  if truthy (statistics st) && negb (loading st) && negb (truthy_str (error st))
  then
    dogs_count ← read (statistics st) total_dogs;
    orgs_count ← read (statistics st) total_organizations;
    country_list ← read (statistics st) countries;
    mret [SuccessPanel
            [ {| value := dogs_count; label := "Dogs need homes" |};
              {| value := orgs_count; label := "Rescue Organizations" |};
              {| value := Z.of_nat (length country_list);
                 label := "Countries" |} ]
            (preview_area (previewDogs p))]
  else mret [].

(** Lines 81-85. *)
Definition loading_block (st : State) : list Panel :=
  if loading st then [LoadingPlaceholder] else [].

(** Lines 87-94: the message held in [error] and the "Try again" button. *)
Definition error_block (st : State) : list Panel :=
  match error st with
  | Some msg => if truthy_str (error st)
                then [ErrorPanel msg FetchStatistics] else []
  | None => []
  end.

Definition cta_links : list Link :=
  [ {| href := "/donate"; text := "Donate Now" |};
    {| href := "/gallery"; text := "View Dogs" |} ].

(** The component's return value, lines 45-176. *)
Definition render (p : Props) (st : State) : result View :=
  success ← success_block p st;
  mret {| cta := cta_links;
          column := loading_block st ++ error_block st ++ success |}.

Definition view_of (c : Component) : result View := render (props c) (ui c).

(** ** Events *)

(** The "Try again" button, if the view has one. *)
Definition retry_control (v : View) : option Handler :=
  head (omap (fun b => match b with
                       | ErrorPanel _ h => Some h
                       | _ => None
                       end) (column v)).

Definition run_handler (h : Handler) : Hook unit :=
  match h with FetchStatistics => fetchStatistics_call end.

(** The dependency array of line 43: the effect runs again when
    [initialStatistics] is not the same value as in the previous render.
    [null] is the same as [null]; an object may or may not be the same
    object, which makes no difference because the effect does nothing for
    an object. *)
Definition deps_changed (old new : option Statistics) : bool :=
  truthy old || truthy new.

Definition rerender (p : Props) : Hook unit := fun c =>
  let c' := {| ui := ui c; props := p; pending := pending c; log := log c |} in
  if deps_changed (initialStatistics (props c)) (initialStatistics p)
  then useEffect c'
  else ret tt c'.

Inductive Event :=
| ClickTryAgain               (* the user presses the retry button *)
| Settle (o : Outcome)        (* a promise of getStatistics settles *)
| Rerender (p : Props).       (* the parent renders with new props *)

Definition settled (c : Component) (n : nat) : Component :=
  {| ui := ui c; props := props c; pending := n; log := log c |}.

(** One event; [None] when the event cannot happen in [c]. *)
Definition step (e : Event) (c : Component) : option Component :=
  match e with
  | ClickTryAgain =>
      match view_of c with
      | Ok v => match retry_control v with
                | Some h => Some (exec (run_handler h) c)
                | None => None
                end
      | TypeError _ => None
      end
  | Settle o =>
      match pending c with
      | S n => Some (exec (fetchStatistics_resume o) (settled c n))
      | O => None
      end
  | Rerender p => Some (exec (rerender p) c)
  end.

Fixpoint run (evs : list Event) (c : Component) : option Component :=
  match evs with
  | [] => Some c
  | e :: evs' => match step e c with
                 | Some c' => run evs' c'
                 | None => None
                 end
  end.

(** The components a mount with props [p] can evolve into. *)
Definition reachable (p : Props) (c : Component) : Prop :=
  exists evs, run evs (mount p) = Some c.

(** The same, after at least one request has settled. *)
Definition reachable_after_fetch (p : Props) (c : Component) : Prop :=
  exists before o after,
    run (before ++ Settle o :: after) (mount p) = Some c.

(** The three states of the panel. *)
Definition in_loading (st : State) : bool := loading st.

Definition in_failure (st : State) : bool :=
  negb (loading st) && truthy_str (error st).

Definition in_success (st : State) : bool :=
  truthy (statistics st) && negb (loading st) && negb (truthy_str (error st)).

(** What a view shows of the preview area. *)
Definition cards_of (v : View) : list Card :=
  mjoin (omap (fun b => match b with
                        | SuccessPanel _ (PreviewCards cards) => Some cards
                        | _ => None
                        end) (column v)).

Definition fallback_of (v : View) : list Link :=
  omap (fun b => match b with
                 | SuccessPanel _ (BrowseAll l) => Some l
                 | _ => None
                 end) (column v).

Definition counters_of (v : View) : list Counter :=
  mjoin (omap (fun b => match b with
                        | SuccessPanel counters _ => Some counters
                        | _ => None
                        end) (column v)).

(** ** Predicates on components *)

(** Props whose [initialStatistics] stays an object. *)
Definition keeps_statistics (e : Event) : bool :=
  match e with
  | Rerender p => truthy (initialStatistics p)
  | _ => true
  end.

(** A component that was handed statistics and never had to ask. *)
Definition supplied (s : Statistics) (c : Component) : Prop :=
  ui c = {| statistics := Some s; loading := false; error := None |} /\
  truthy (initialStatistics (props c)) = true /\
  pending c = 0 /\
  requests c = 0.

(** What the handlers maintain: [error] is null or the fixed message, a
    message is only held with [loading] false, and with neither flag set
    there are statistics. *)
Definition consistent (st : State) : Prop :=
  (error st = None \/
   (error st = Some error_message /\ loading st = false)) /\
  (loading st = false -> error st = None -> statistics st <> None).

(** ** Bookkeeping over the log and over runs *)

(** The component with other props, its cells untouched. *)
Definition with_props (p : Props) (c : Component) : Component :=
  {| ui := ui c; props := p; pending := pending c; log := log c |}.

(** How many logged effects satisfy [f]. *)
Definition tally (f : Effect -> bool) (l : list Effect) : nat :=
  length (filter (fun e => f e = true) l).

Definition is_report (e : Effect) : bool :=
  match e with ReportError _ _ => true | _ => false end.

(** [setLoading(false)] is the [finally] block: one per settled request. *)
Definition is_answer (e : Effect) : bool :=
  match e with SetLoading false => true | _ => false end.

Definition is_store (e : Effect) : bool :=
  match e with SetStatistics _ => true | _ => false end.

(** Calls of the error reporter, and requests answered, so far. *)
Definition reports (c : Component) : nat := tally is_report (log c).
Definition answered (c : Component) : nat := tally is_answer (log c).
Definition stores (c : Component) : nat := tally is_store (log c).

Definition is_rejection (e : Event) : bool :=
  match e with Settle (Rejected _) => true | _ => false end.

Definition is_resolution (e : Event) : bool :=
  match e with Settle (Resolved _) => true | _ => false end.

(** The user's persistence: each failure is followed by a retry. *)
Definition retry_after_each (errs : list JsError) : list Event :=
  errs ≫= (fun err => [Settle (Rejected err); ClickTryAgain]).

(** While the placeholder is up, a request is in flight. *)
Definition busy (c : Component) : Prop :=
  loading (ui c) = true -> 0 < pending c.

(** Every request sent is pending or has been answered. *)
Definition accounted (c : Component) : Prop :=
  tally is_request (log c) = pending c + tally is_answer (log c).

(** Rejected and resolved requests among the events of a run. *)
Definition rejections (evs : list Event) : nat :=
  length (filter (fun e => is_rejection e = true) evs).

Definition resolutions (evs : list Event) : nat :=
  length (filter (fun e => is_resolution e = true) evs).

(** What is on screen at some time: the first render, committed before
    the effect runs, or a component reachable from the mount. *)
Definition displayed (p : Props) (c : Component) : Prop :=
  c = first_render p \/ reachable p c.

(** * Properties *)

(** ** Running the handlers *)

Section Handlers.
Variable c : Component.

Lemma exec_call :
  exec fetchStatistics_call c =
  {| ui := {| statistics := statistics (ui c); loading := true;
              error := None |};
     props := props c;
     pending := S (pending c);
     log := log c ++ [SetLoading true; SetError None; GetStatistics] |}.
Proof.
  unfold exec, fetchStatistics_call, bind, setLoading, setError,
    getStatistics, record, with_ui; simpl.
  by rewrite <- !app_assoc.
Qed.

Lemma exec_resume_resolved stats :
  exec (fetchStatistics_resume (Resolved stats)) c =
  {| ui := {| statistics := Some stats; loading := false;
              error := error (ui c) |};
     props := props c;
     pending := pending c;
     log := log c ++ [SetStatistics (Some stats); SetLoading false] |}.
Proof.
  unfold exec, fetchStatistics_resume, bind, setStatistics, setLoading,
    record, with_ui; simpl.
  by rewrite <- !app_assoc.
Qed.

Lemma exec_resume_rejected err :
  exec (fetchStatistics_resume (Rejected err)) c =
  {| ui := {| statistics := statistics (ui c); loading := false;
              error := Some error_message |};
     props := props c;
     pending := pending c;
     log := log c ++ [ReportError error_label [("error", message err)];
                      SetError (Some error_message); SetLoading false] |}.
Proof.
  unfold exec, fetchStatistics_resume, bind, reportError, setError,
    setLoading, record, with_ui; simpl.
  by rewrite <- !app_assoc.
Qed.
End Handlers.

Lemma requests_app (c : Component) (es : list Effect) :
  length (filter (fun e => is_request e = true) (log c ++ es)) =
  requests c + length (filter (fun e => is_request e = true) es).
Proof. unfold requests. by rewrite filter_app, length_app. Qed.

(** ** Rendering *)

Lemma read_null {A} (f : Statistics -> A) :
  read None f = TypeError "Cannot read properties of null".
Proof. reflexivity. Qed.

Lemma success_block_guard (p : Props) (st : State) :
  success_block p st =
  match statistics st with
  | Some s =>
      if negb (loading st) && negb (truthy_str (error st))
      then Ok [SuccessPanel
                 [ {| value := total_dogs s; label := "Dogs need homes" |};
                   {| value := total_organizations s;
                      label := "Rescue Organizations" |};
                   {| value := Z.of_nat (length (countries s));
                      label := "Countries" |} ]
                 (preview_area (previewDogs p))]
      else Ok []
  | None => Ok []
  end.
Proof.
  unfold success_block.
  destruct (statistics st) as [s|]; simpl; [|done].
  by destruct (negb (loading st) && negb (truthy_str (error st))).
Qed.

Lemma render_column (p : Props) (st : State) :
  exists success,
    success_block p st = Ok success /\
    render p st =
    Ok {| cta := cta_links;
          column := loading_block st ++ error_block st ++ success |}.
Proof.
  unfold render. rewrite success_block_guard.
  destruct (statistics st);
    [destruct (negb (loading st) && negb (truthy_str (error st)))|];
    eexists; split; reflexivity.
Qed.

(** ** Failure of the request *)

(** C1: whatever error the request fails with, the continuation of
    [fetchStatistics] completes; it calls the error reporter with the label
    "Error fetching statistics" and the error's own message, stores the
    message "Unable to load statistics. Please try again later." in
    [error], and sets [loading] to false last.  The stored message does
    not depend on the error. *)
Theorem fetch_failure_is_caught (err : JsError) (c : Component) :
  error (ui (exec (fetchStatistics_resume (Rejected err)) c)) =
    Some "Unable to load statistics. Please try again later." /\
  loading (ui (exec (fetchStatistics_resume (Rejected err)) c)) = false /\
  log (exec (fetchStatistics_resume (Rejected err)) c) =
    log c ++ [ReportError "Error fetching statistics"
                          [("error", message err)];
              SetError
                (Some "Unable to load statistics. Please try again later.");
              SetLoading false] /\
  pending (exec (fetchStatistics_resume (Rejected err)) c) = pending c.
Proof. by rewrite exec_resume_rejected. Qed.

(** C9: a failed request leaves the stored statistics as they were.  The
    [catch] branch calls no [setStatistics]; the same holds for a whole
    failed attempt (call, then rejection), and for the step of the
    component in which a pending request is rejected. *)
Theorem fetch_failure_keeps_statistics (err : JsError) (c : Component) :
  statistics (ui (exec (fetchStatistics_resume (Rejected err)) c)) =
    statistics (ui c) /\
  (forall s, SetStatistics s ∉
     drop (length (log c))
          (log (exec (fetchStatistics_resume (Rejected err)) c))) /\
  statistics (ui (exec (fetchStatistics_resume (Rejected err))
                       (exec fetchStatistics_call c))) =
    statistics (ui c) /\
  (forall c', step (Settle (Rejected err)) c = Some c' ->
              statistics (ui c') = statistics (ui c)).
Proof.
  split; [|split; [|split]].
  - by rewrite exec_resume_rejected.
  - intros s. rewrite exec_resume_rejected; simpl.
    rewrite drop_app_length. rewrite !elem_of_cons, elem_of_nil.
    intros [H|[H|[H|[]]]]; discriminate H.
  - by rewrite exec_resume_rejected, exec_call.
  - intros c'. unfold step. destruct (pending c) as [|n]; [done|].
    intros [= <-]. by rewrite exec_resume_rejected.
Qed.

(** ** The success view *)

(** C5: when the success view is displayed for stored statistics [s], its
    three counters receive [s.total_dogs], [s.total_organizations] and the
    length of [s.countries], in this order. *)
Theorem counters_show_statistics (p : Props) (st : State) (s : Statistics) :
  statistics st = Some s ->
  in_success st = true ->
  render p st =
  Ok {| cta := cta_links;
        column :=
          [SuccessPanel
             [ {| value := total_dogs s; label := "Dogs need homes" |};
               {| value := total_organizations s;
                  label := "Rescue Organizations" |};
               {| value := Z.of_nat (length (countries s));
                  label := "Countries" |} ]
             (preview_area (previewDogs p))] |}.
Proof.
  intros Hs Hok. unfold in_success in Hok. rewrite Hs in Hok; simpl in Hok.
  apply andb_prop in Hok as [Hload Herr].
  unfold render. rewrite success_block_guard, Hs, Hload, Herr; simpl.
  unfold loading_block, error_block.
  apply negb_true_iff in Hload, Herr. rewrite Hload, Herr.
  by destruct (error st).
Qed.

Lemma counters_show_statistics_witness :
  render default_props
    {| statistics := Some {| total_dogs := 412; total_organizations := 9;
                             countries := ["CA"; "TR"; "RO"] |};
       loading := false; error := None |} =
  Ok {| cta := cta_links;
        column :=
          [SuccessPanel
             [ {| value := 412; label := "Dogs need homes" |};
               {| value := 9; label := "Rescue Organizations" |};
               {| value := 3; label := "Countries" |} ]
             (BrowseAll gallery_link)] |}.
Proof.
  apply (counters_show_statistics default_props
           {| statistics := Some {| total_dogs := 412;
                                    total_organizations := 9;
                                    countries := ["CA"; "TR"; "RO"] |};
              loading := false; error := None |}
           {| total_dogs := 412; total_organizations := 9;
              countries := ["CA"; "TR"; "RO"] |});
    reflexivity.
Defined.

(** C10: rendering never throws.  In every state, and so in every
    reachable one, the JSX evaluates to a view; the three properties of
    [statistics] are read inside the block guarded by [statistics &&], so
    with [statistics] null no counter is built and nothing is read. *)
Theorem render_never_reads_null (p : Props) (st : State) :
  exists v, render p st = Ok v /\
            (statistics st = None -> counters_of v = [] /\
                                     success_block p st = Ok []).
Proof.
  destruct (render_column p st) as (success & Hs & Hr).
  eexists; split; [exact Hr|].
  intros Hnull. rewrite success_block_guard, Hnull in Hs.
  injection Hs as <-. split; [|by rewrite success_block_guard, Hnull].
  unfold counters_of, loading_block, error_block; simpl.
  rewrite app_nil_r.
  destruct (loading st), (error st) as [msg|]; simpl; try done;
    by destruct (String.eqb msg "").
Qed.

(** ** The preview area *)

Lemma preview_cards_length (dogs : list Dog.t) :
  length (preview_cards dogs) = Nat.min 3 (length dogs).
Proof. unfold preview_cards. by rewrite length_imap, length_take. Qed.

Lemma preview_cards_lookup (dogs : list Dog.t) (i : nat) (card : Card) :
  preview_cards dogs !! i = Some card <->
  i < 3 /\ exists d, dogs !! i = Some d /\
    card = {| key := Dog.id d; dog := d; index := i;
              priority := Nat.eqb i 0 |}.
Proof.
  unfold preview_cards. rewrite list_lookup_imap_Some. split.
  - intros (d & Hd & ->). apply lookup_take_Some in Hd as [Hd Hi]. eauto.
  - intros (Hi & d & Hd & ->). exists d. split; [|done].
    by rewrite lookup_take_lt.
Qed.

Lemma more_than_three (dogs : list Dog.t) :
  3 < length dogs ->
  exists d0 d1 d2 d3 rest, dogs = d0 :: d1 :: d2 :: d3 :: rest.
Proof.
  destruct dogs as [|d0 [|d1 [|d2 [|d3 rest]]]]; simpl; try lia.
  intros _. by exists d0, d1, d2, d3, rest.
Qed.

(** C3 as stated fails.  Five preview dogs and no initial statistics:
    the first view is the loading placeholder alone, and after a rejected
    request the error panel alone.  Neither renders a preview card. *)
Lemma no_preview_card_outside_success :
  3 < length (previewDogs
                {| initialStatistics := None;
                   previewDogs :=
                     [ {| Dog.id := 11; Dog.fields := [] |};
                       {| Dog.id := 12; Dog.fields := [] |};
                       {| Dog.id := 13; Dog.fields := [] |};
                       {| Dog.id := 14; Dog.fields := [] |};
                       {| Dog.id := 15; Dog.fields := [] |} ] |}) /\
  view_of (mount {| initialStatistics := None;
                    previewDogs :=
                      [ {| Dog.id := 11; Dog.fields := [] |};
                        {| Dog.id := 12; Dog.fields := [] |};
                        {| Dog.id := 13; Dog.fields := [] |};
                        {| Dog.id := 14; Dog.fields := [] |};
                        {| Dog.id := 15; Dog.fields := [] |} ] |}) =
    Ok {| cta := cta_links; column := [LoadingPlaceholder] |} /\
  cards_of {| cta := cta_links; column := [LoadingPlaceholder] |} = [] /\
  (view_of <$>
     step (Settle (Rejected {| name := "TypeError";
                               message := "Failed to fetch" |}))
          (mount {| initialStatistics := None;
                    previewDogs :=
                      [ {| Dog.id := 11; Dog.fields := [] |};
                        {| Dog.id := 12; Dog.fields := [] |};
                        {| Dog.id := 13; Dog.fields := [] |};
                        {| Dog.id := 14; Dog.fields := [] |};
                        {| Dog.id := 15; Dog.fields := [] |} ] |})) =
    Some (Ok {| cta := cta_links;
                column := [ErrorPanel
                             "Unable to load statistics. Please try again later."
                             FetchStatistics] |}) /\
  cards_of
    {| cta := cta_links;
       column := [ErrorPanel
                    "Unable to load statistics. Please try again later."
                    FetchStatistics] |} = [].
Proof. split; [simpl; lia|]. by vm_compute. Qed.

(** C3, amended: for a list of more than three preview dogs, whenever
    the success view is displayed (statistics stored, not loading, no
    error), exactly three preview cards are rendered, built from the
    first three entries in their order; the card at position [i] receives
    [index = i], the dog and the dog's id as key, and [priority] is true
    for position 0 only.  While the loading placeholder or the error
    panel is displayed, no preview card is rendered.  The link to the
    listing is rendered in no state. *)
Theorem first_three_cards_in_success_view (p : Props) (st : State) :
  3 < length (previewDogs p) ->
  exists d0 d1 d2 v,
    take 3 (previewDogs p) = [d0; d1; d2] /\
    preview_area (previewDogs p) =
      PreviewCards
        [ {| key := Dog.id d0; dog := d0; index := 0; priority := true |};
          {| key := Dog.id d1; dog := d1; index := 1; priority := false |};
          {| key := Dog.id d2; dog := d2; index := 2; priority := false |} ] /\
    render p st = Ok v /\
    cards_of v =
      (if in_success st
       then [ {| key := Dog.id d0; dog := d0; index := 0; priority := true |};
              {| key := Dog.id d1; dog := d1; index := 1; priority := false |};
              {| key := Dog.id d2; dog := d2; index := 2; priority := false |} ]
       else []) /\
    fallback_of v = [].
Proof.
  intros (d0 & d1 & d2 & d3 & rest & Hdogs)%more_than_three.
  destruct (render_column p st) as (success & Hs & Hr).
  exists d0, d1, d2,
    {| cta := cta_links;
       column := loading_block st ++ error_block st ++ success |}.
  rewrite success_block_guard, Hdogs in Hs. rewrite Hdogs.
  split; [done|]. split; [done|]. split; [exact Hr|].
  unfold in_success, cards_of, fallback_of, loading_block, error_block; simpl.
  destruct (statistics st) as [s|], (loading st), (error st) as [msg|];
    simpl in *; try destruct (String.eqb msg ""); simpl in *;
    injection Hs as <-; by split.
Qed.

Lemma first_three_cards_in_success_view_witness :
  exists v,
    render
      {| initialStatistics := None;
         previewDogs :=
           [ {| Dog.id := 11; Dog.fields := [("name", "Luna")] |};
             {| Dog.id := 12; Dog.fields := [("name", "Max")] |};
             {| Dog.id := 13; Dog.fields := [("name", "Bella")] |};
             {| Dog.id := 14; Dog.fields := [("name", "Rocky")] |};
             {| Dog.id := 15; Dog.fields := [("name", "Daisy")] |} ] |}
      {| statistics := Some {| total_dogs := 412; total_organizations := 9;
                               countries := ["CA"; "TR"; "RO"] |};
         loading := false; error := None |} = Ok v /\
    cards_of v =
      [ {| key := 11;
           dog := {| Dog.id := 11; Dog.fields := [("name", "Luna")] |};
           index := 0; priority := true |};
        {| key := 12;
           dog := {| Dog.id := 12; Dog.fields := [("name", "Max")] |};
           index := 1; priority := false |};
        {| key := 13;
           dog := {| Dog.id := 13; Dog.fields := [("name", "Bella")] |};
           index := 2; priority := false |} ].
Proof.
  destruct (first_three_cards_in_success_view
    {| initialStatistics := None;
       previewDogs :=
         [ {| Dog.id := 11; Dog.fields := [("name", "Luna")] |};
           {| Dog.id := 12; Dog.fields := [("name", "Max")] |};
           {| Dog.id := 13; Dog.fields := [("name", "Bella")] |};
           {| Dog.id := 14; Dog.fields := [("name", "Rocky")] |};
           {| Dog.id := 15; Dog.fields := [("name", "Daisy")] |} ] |}
    {| statistics := Some {| total_dogs := 412; total_organizations := 9;
                             countries := ["CA"; "TR"; "RO"] |};
       loading := false; error := None |})
    as (d0 & d1 & d2 & v & Htake & _ & Hrender & Hcards & _).
  - simpl. lia.
  - simpl in Htake. injection Htake as <- <- <-.
    exists v. split; [exact Hrender|exact Hcards].
Defined.

(** C4 as stated fails.  With no preview dogs and no initial statistics
    (both props omitted) the component first shows the loading placeholder alone, and after a
    rejected request the error panel alone: neither view contains the
    link to the listing. *)
Lemma no_fallback_link_outside_success :
  previewDogs default_props = [] /\
  view_of (mount default_props) =
    Ok {| cta := cta_links; column := [LoadingPlaceholder] |} /\
  fallback_of {| cta := cta_links; column := [LoadingPlaceholder] |} = [] /\
  (view_of <$>
     step (Settle (Rejected {| name := "TypeError";
                               message := "Failed to fetch" |}))
          (mount default_props)) =
    Some (Ok {| cta := cta_links;
                column := [ErrorPanel
                             "Unable to load statistics. Please try again later."
                             FetchStatistics] |}) /\
  fallback_of
    {| cta := cta_links;
       column := [ErrorPanel
                    "Unable to load statistics. Please try again later."
                    FetchStatistics] |} = [].
Proof. by vm_compute. Qed.

(** C4, amended: with an empty list of preview dogs (the default of the
    prop), no state renders a preview card, and the link to "/gallery" is
    rendered in the place of the cards exactly when the success view is
    displayed (statistics stored, not loading, no error); the loading
    placeholder and the error panel come without it. *)
Theorem fallback_link_in_success_view (p : Props) (st : State) :
  previewDogs p = [] ->
  exists v,
    render p st = Ok v /\
    cards_of v = [] /\
    fallback_of v =
      if in_success st
      then [ {| href := "/gallery"; text := "Browse all dogs →" |} ]
      else [].
Proof.
  intros Hdogs.
  destruct (render_column p st) as (success & Hs & Hr).
  exists {| cta := cta_links;
            column := loading_block st ++ error_block st ++ success |}.
  split; [exact Hr|].
  rewrite success_block_guard, Hdogs in Hs.
  unfold in_success, cards_of, fallback_of, loading_block, error_block; simpl.
  destruct (statistics st) as [s|], (loading st), (error st) as [msg|];
    simpl in *; try destruct (String.eqb msg ""); simpl in *;
    injection Hs as <-; by split.
Qed.

Lemma fallback_link_in_success_view_witness :
  exists v,
    render default_props
      {| statistics := Some {| total_dogs := 412; total_organizations := 9;
                               countries := ["CA"; "TR"; "RO"] |};
         loading := false; error := None |} = Ok v /\
    cards_of v = [] /\
    fallback_of v = [ {| href := "/gallery"; text := "Browse all dogs →" |} ].
Proof.
  apply (fallback_link_in_success_view default_props
           {| statistics := Some {| total_dogs := 412;
                                    total_organizations := 9;
                                    countries := ["CA"; "TR"; "RO"] |};
              loading := false; error := None |}).
  reflexivity.
Defined.

(** ** Mounting and the request *)

Lemma requests_call (c : Component) :
  requests (exec fetchStatistics_call c) = S (requests c).
Proof.
  rewrite exec_call. unfold requests at 1; simpl.
  rewrite requests_app; simpl. lia.
Qed.

Lemma requests_resume (o : Outcome) (c : Component) (n : nat) :
  requests (exec (fetchStatistics_resume o) (settled c n)) = requests c.
Proof.
  destruct o; [rewrite exec_resume_resolved|rewrite exec_resume_rejected];
    unfold requests at 1; simpl; rewrite requests_app; simpl; lia.
Qed.

Lemma supplied_step (s : Statistics) (e : Event) (c c' : Component) :
  supplied s c -> keeps_statistics e = true -> step e c = Some c' ->
  supplied s c'.
Proof.
  intros (Hui & Hprop & Hpend & Hreq) Hkeep.
  destruct e as [|o|p]; simpl.
  - unfold view_of, render. rewrite success_block_guard, Hui; simpl.
    discriminate.
  - by rewrite Hpend.
  - intros [= <-]. simpl in Hkeep.
    unfold exec, rerender, deps_changed, useEffect; simpl.
    rewrite Hkeep, orb_true_r; simpl. by repeat split.
Qed.

Lemma supplied_run (s : Statistics) (evs : list Event) :
  forall c c',
    supplied s c -> forallb keeps_statistics evs = true ->
    run evs c = Some c' -> supplied s c'.
Proof.
  induction evs as [|e evs IH]; simpl; intros c c' Hc Hkeep Hrun.
  - by injection Hrun as <-.
  - apply andb_prop in Hkeep as [He Hevs].
    destruct (step e c) as [c1|] eqn:Hstep; [|discriminate].
    eapply IH; [|exact Hevs|exact Hrun].
    by eapply supplied_step.
Qed.

(** C2: with [initialStatistics] an object, the first render has
    [loading] false and the given object as [statistics], and shows the
    success view (the counters of the object and the preview area) with
    no placeholder; mounting sends no request; and as long as the parent
    keeps passing statistics, no event sends one, the stored statistics
    stay the given object and the success view stays. *)
Theorem supplied_statistics_need_no_request
        (s : Statistics) (dogs : list Dog.t) :
  loading (initial_state {| initialStatistics := Some s;
                            previewDogs := dogs |}) = false /\
  statistics (initial_state {| initialStatistics := Some s;
                               previewDogs := dogs |}) = Some s /\
  render {| initialStatistics := Some s; previewDogs := dogs |}
         (initial_state {| initialStatistics := Some s;
                           previewDogs := dogs |}) =
    Ok {| cta := cta_links;
          column :=
            [SuccessPanel
               [ {| value := total_dogs s; label := "Dogs need homes" |};
                 {| value := total_organizations s;
                    label := "Rescue Organizations" |};
                 {| value := Z.of_nat (length (countries s));
                    label := "Countries" |} ]
               (preview_area dogs)] |} /\
  log (mount {| initialStatistics := Some s; previewDogs := dogs |}) = [] /\
  forall evs c,
    forallb keeps_statistics evs = true ->
    run evs (mount {| initialStatistics := Some s; previewDogs := dogs |})
      = Some c ->
    requests c = 0 /\
    ui c = {| statistics := Some s; loading := false; error := None |} /\
    exists counters preview,
      view_of c = Ok {| cta := cta_links;
                        column := [SuccessPanel counters preview] |}.
Proof.
  split; [done|]. split; [done|]. split; [done|]. split; [done|].
  intros evs c Hkeep Hrun.
  assert (supplied s c) as (Hui & _ & _ & Hreq).
  { eapply supplied_run; [|exact Hkeep|exact Hrun]. by repeat split. }
  split; [exact Hreq|]. split; [exact Hui|].
  unfold view_of, render. rewrite success_block_guard, Hui; simpl.
  by eexists _, _.
Qed.

(** C6: mounted without statistics, the component first renders with
    [loading] true and shows the loading placeholder alone; the effect
    sends one request.  When that request settles, the component is in
    exactly one of the states success (the received statistics stored,
    [loading] false, no error) and failure (the fixed message stored,
    [loading] false), according to the outcome, and nothing is pending:
    no second outcome can arrive. *)
Theorem mount_without_statistics (dogs : list Dog.t) (o : Outcome) :
  loading (initial_state {| initialStatistics := None;
                            previewDogs := dogs |}) = true /\
  render {| initialStatistics := None; previewDogs := dogs |}
         (initial_state {| initialStatistics := None;
                           previewDogs := dogs |}) =
    Ok {| cta := cta_links; column := [LoadingPlaceholder] |} /\
  log (mount {| initialStatistics := None; previewDogs := dogs |}) =
    [SetLoading true; SetError None; GetStatistics] /\
  requests (mount {| initialStatistics := None; previewDogs := dogs |}) = 1 /\
  pending (mount {| initialStatistics := None; previewDogs := dogs |}) = 1 /\
  ui (mount {| initialStatistics := None; previewDogs := dogs |}) =
    {| statistics := None; loading := true; error := None |} /\
  exists c,
    step (Settle o)
         (mount {| initialStatistics := None; previewDogs := dogs |})
      = Some c /\
    pending c = 0 /\
    requests c = 1 /\
    in_loading (ui c) = false /\
    xorb (in_success (ui c)) (in_failure (ui c)) = true /\
    ui c = match o with
           | Resolved stats =>
               {| statistics := Some stats; loading := false;
                  error := None |}
           | Rejected _ =>
               {| statistics := None; loading := false;
                  error :=
                    Some "Unable to load statistics. Please try again later."
               |}
           end /\
    in_success (ui c) = match o with
                        | Resolved _ => true
                        | Rejected _ => false
                        end /\
    forall o', step (Settle o') c = None.
Proof.
  do 6 (split; [done|]).
  destruct o as [stats|err]; eexists; (split; [reflexivity|]); by vm_compute.
Qed.

(** ** Retrying *)

(** C7: in the failure state ([loading] false, the fixed message in
    [error]) the view is the error panel alone, with the message and the
    "Try again" button bound to [fetchStatistics]; pressing the button
    sends one more request, sets [loading] to true and [error] to null,
    leaves the stored statistics alone, and the view becomes the loading
    placeholder. *)
Theorem retry_from_failure (c : Component) :
  loading (ui c) = false ->
  error (ui c) = Some "Unable to load statistics. Please try again later." ->
  in_failure (ui c) = true /\
  view_of c =
    Ok {| cta := cta_links;
          column := [ErrorPanel
                       "Unable to load statistics. Please try again later."
                       FetchStatistics] |} /\
  exists c',
    step ClickTryAgain c = Some c' /\
    ui c' = {| statistics := statistics (ui c); loading := true;
               error := None |} /\
    in_loading (ui c') = true /\
    log c' = log c ++ [SetLoading true; SetError None; GetStatistics] /\
    requests c' = S (requests c) /\
    pending c' = S (pending c) /\
    view_of c' = Ok {| cta := cta_links; column := [LoadingPlaceholder] |}.
Proof.
  intros Hload Herr.
  assert (view_of c =
    Ok {| cta := cta_links;
          column := [ErrorPanel
                       "Unable to load statistics. Please try again later."
                       FetchStatistics] |}) as Hview.
  { unfold view_of, render. rewrite success_block_guard.
    unfold loading_block, error_block. rewrite Hload, Herr; simpl.
    by destruct (statistics (ui c)). }
  split; [unfold in_failure; by rewrite Hload, Herr|].
  split; [exact Hview|].
  exists (exec fetchStatistics_call c).
  split; [unfold step; by rewrite Hview|].
  rewrite requests_call, exec_call; simpl.
  do 5 (split; [done|]).
  unfold view_of, render; rewrite success_block_guard; simpl.
  by destruct (statistics (ui c)).
Qed.

Lemma retry_from_failure_witness :
  exists c c',
    run [Settle (Rejected {| name := "TypeError";
                             message := "Failed to fetch" |})]
        (mount default_props) = Some c /\
    view_of c =
      Ok {| cta := cta_links;
            column := [ErrorPanel
                         "Unable to load statistics. Please try again later."
                         FetchStatistics] |} /\
    step ClickTryAgain c = Some c' /\
    ui c' = {| statistics := None; loading := true; error := None |} /\
    requests c' = 2.
Proof.
  eexists; edestruct (retry_from_failure
    (exec (fetchStatistics_resume
             (Rejected {| name := "TypeError"; message := "Failed to fetch" |}))
          (settled (mount default_props) 0)))
    as (_ & Hview & c' & Hstep & Hui & _ & _ & Hreq & _);
    [reflexivity|reflexivity|].
  exists c'. split; [reflexivity|]. split; [exact Hview|].
  split; [exact Hstep|]. split; [exact Hui|]. exact Hreq.
Defined.

(** ** One panel at a time *)

Lemma consistent_call (c : Component) :
  consistent (ui (exec fetchStatistics_call c)).
Proof. rewrite exec_call. split; simpl; [by left|discriminate]. Qed.

Lemma consistent_resume (o : Outcome) (c : Component) (n : nat) :
  consistent (ui c) ->
  consistent (ui (exec (fetchStatistics_resume o) (settled c n))).
Proof.
  intros [Herr _].
  destruct o; [rewrite exec_resume_resolved|rewrite exec_resume_rejected];
    split; simpl; try discriminate; try (by right).
  destruct Herr as [?|[? _]]; [by left|by right].
Qed.

Lemma mount_cases (p : Props) :
  mount p = match initialStatistics p with
            | Some _ => first_render p
            | None => exec fetchStatistics_call (first_render p)
            end.
Proof.
  unfold mount, exec, useEffect. change (props (first_render p)) with p.
  by destruct (initialStatistics p).
Qed.

Lemma consistent_mount (p : Props) : consistent (ui (mount p)).
Proof.
  rewrite mount_cases.
  destruct (initialStatistics p) as [s|] eqn:Hinit.
  - split; simpl; [by left|]. by rewrite Hinit.
  - apply consistent_call.
Qed.

Lemma consistent_step (e : Event) (c c' : Component) :
  consistent (ui c) -> step e c = Some c' -> consistent (ui c').
Proof.
  intros Hc. destruct e as [|o|p]; simpl.
  - destruct (view_of c) as [v|]; [|discriminate].
    destruct (retry_control v) as [[]|]; [|discriminate].
    intros [= <-]. apply consistent_call.
  - destruct (pending c) as [|n]; [discriminate|].
    intros [= <-]. by apply consistent_resume.
  - intros [= <-]. unfold exec, rerender, useEffect; simpl.
    destruct (deps_changed _ _); [|exact Hc].
    destruct (negb _); [|exact Hc].
    apply (consistent_call
             {| ui := ui c; props := p; pending := pending c; log := log c |}).
Qed.

Lemma consistent_run (evs : list Event) :
  forall c c', consistent (ui c) -> run evs c = Some c' -> consistent (ui c').
Proof.
  induction evs as [|e evs IH]; simpl; intros c c' Hc Hrun.
  - by injection Hrun as <-.
  - destruct (step e c) as [c1|] eqn:Hstep; [|discriminate].
    eapply IH; [|exact Hrun]. by eapply consistent_step.
Qed.

Lemma reachable_consistent (p : Props) (c : Component) :
  reachable p c -> consistent (ui c).
Proof.
  intros [evs Hrun]. eapply consistent_run; [|exact Hrun].
  apply consistent_mount.
Qed.

Lemma after_fetch_reachable (p : Props) (c : Component) :
  reachable_after_fetch p c -> reachable p c.
Proof. intros (before & o & after & Hrun). by eexists. Qed.

(** The panel a consistent state selects. *)
Lemma consistent_one_panel (p : Props) (st : State) :
  consistent st ->
  exists panel,
    render p st = Ok {| cta := cta_links; column := [panel] |} /\
    match panel with
    | LoadingPlaceholder => loading st = true
    | ErrorPanel shown _ =>
        loading st = false /\ error st = Some shown /\ shown = error_message
    | SuccessPanel _ _ =>
        loading st = false /\ error st = None /\ statistics st <> None
    end.
Proof.
  intros [Herr Hstats]. unfold render. rewrite success_block_guard.
  unfold loading_block, error_block.
  destruct Herr as [Herr|[Herr Hload]].
  - rewrite Herr. destruct (loading st) eqn:Hload.
    + exists LoadingPlaceholder. by destruct (statistics st).
    + destruct (statistics st) as [s|] eqn:Hs; simpl.
      * eexists; split; [reflexivity|]. by split.
      * by destruct Hstats.
  - rewrite Herr, Hload; simpl. exists (ErrorPanel error_message FetchStatistics).
    by destruct (statistics st).
Qed.

(** C8: once a request has settled, every view the component can show
    has exactly one of the three panels in its right-hand column, so no
    two of them are shown together: the loading placeholder when
    [loading] is true (no error is held then), the error panel when an
    error is held ([loading] is false then), and the success panel when
    neither holds and statistics are stored.  When an error and
    statistics are both held, the panel is the error panel. *)
Theorem one_panel_after_fetch (p : Props) (c : Component) :
  reachable_after_fetch p c ->
  exists panel,
    view_of c = Ok {| cta := cta_links; column := [panel] |} /\
    match panel with
    | LoadingPlaceholder => loading (ui c) = true /\ error (ui c) = None
    | ErrorPanel shown _ => loading (ui c) = false /\ error (ui c) = Some shown
    | SuccessPanel _ _ =>
        loading (ui c) = false /\ error (ui c) = None /\
        statistics (ui c) <> None
    end /\
    (error (ui c) <> None -> statistics (ui c) <> None ->
     panel = ErrorPanel "Unable to load statistics. Please try again later."
                        FetchStatistics).
Proof.
  intros Hc%after_fetch_reachable%reachable_consistent.
  destruct (consistent_one_panel (props c) (ui c) Hc) as (panel & Hview & Hp).
  exists panel. split; [exact Hview|].
  destruct Hc as [Herr _].
  destruct panel as [|shown h|counters preview].
  - assert (error (ui c) = None) as Hnone.
    { destruct Herr as [?|[_ Hload]]; [done|congruence]. }
    split; [done|]. by intros [].
  - destruct Hp as (Hload & Hshown & ->). split; [done|].
    intros _ _. by destruct h.
  - destruct Hp as (Hload & Hnone & Hstats). split; [done|]. by intros [].
Qed.

Lemma one_panel_after_fetch_witness :
  exists c panel,
    run [ Rerender default_props;
          Settle (Rejected {| name := "TypeError";
                              message := "Failed to fetch" |}) ]
        (mount {| initialStatistics :=
                    Some {| total_dogs := 412; total_organizations := 9;
                            countries := ["CA"; "TR"; "RO"] |};
                  previewDogs := [] |}) = Some c /\
    statistics (ui c) = Some {| total_dogs := 412; total_organizations := 9;
                                countries := ["CA"; "TR"; "RO"] |} /\
    error (ui c) = Some "Unable to load statistics. Please try again later." /\
    view_of c = Ok {| cta := cta_links; column := [panel] |} /\
    panel = ErrorPanel "Unable to load statistics. Please try again later."
                       FetchStatistics.
Proof.
  eexists.
  edestruct (one_panel_after_fetch
    {| initialStatistics :=
         Some {| total_dogs := 412; total_organizations := 9;
                 countries := ["CA"; "TR"; "RO"] |};
       previewDogs := [] |}) as (panel & Hview & _ & Hboth).
  { exists [Rerender default_props],
      (Rejected {| name := "TypeError"; message := "Failed to fetch" |}), [].
    reflexivity. }
  exists panel. split; [reflexivity|]. split; [reflexivity|].
  split; [reflexivity|]. split; [exact Hview|].
  apply Hboth; discriminate.
Defined.

(** ** Worked runs *)

(** Two requests in flight (the parent passed statistics for a while and
    withdrew them again): the first resolves, the second is rejected.  The
    statistics of the first stay stored under the error panel. *)
Example failed_request_after_success :
  let stats := {| total_dogs := 412; total_organizations := 9;
                  countries := ["CA"; "TR"; "RO"] |} in
  let later := {| total_dogs := 500; total_organizations := 10;
                  countries := ["CA"] |} in
  (fun c => (ui c, pending c, requests c, view_of c)) <$>
    run [ Rerender {| initialStatistics := Some stats; previewDogs := [] |};
          Rerender default_props;
          Settle (Resolved later);
          Settle (Rejected {| name := "Error"; message := "HTTP 500" |}) ]
        (mount default_props) =
  Some ({| statistics := Some later; loading := false;
           error := Some error_message |}, 0, 2,
        Ok {| cta := cta_links;
              column := [ErrorPanel error_message FetchStatistics] |}).
Proof. reflexivity. Qed.

(** The cells between the setter calls of the [catch] branch hold a
    message while [loading] is still true.  No view is computed from
    them: the setter calls of one continuation are committed together,
    and [step] renders after [finally]. *)
Example catch_branch_midway :
  ui (exec (reportError error_label [("error", "Failed to fetch")] ;;
            setError (Some error_message))%hook
           (mount default_props)) =
  {| statistics := None; loading := true; error := Some error_message |}.
Proof. reflexivity. Qed.

(** The retry button exists in the failure state only. *)
Example no_retry_while_loading :
  step ClickTryAgain (mount default_props) = None.
Proof. reflexivity. Qed.

(** At most three cards, whatever the length of the list. *)
Lemma preview_cards_at_most_three (dogs : list Dog.t) :
  length (preview_cards dogs) <= 3.
Proof. rewrite preview_cards_length. lia. Qed.

(** * Further properties of the component *)

(** ** The preview cards, for lists of any length *)

(** X1: the preview shows [min 3 n] cards for [n] preview dogs: a list
    of one, two or three dogs is shown whole, a longer one is cut. *)
Theorem preview_card_count (dogs : list Dog.t) :
  length (preview_cards dogs) = Nat.min 3 (length dogs) /\
  (length dogs <= 3 -> dog <$> preview_cards dogs = dogs).
Proof.
  split; [apply preview_cards_length|].
  intros Hshort. unfold preview_cards.
  rewrite fmap_imap, take_ge by lia.
  change (imap (const id) dogs = dogs).
  rewrite imap_const. apply list_fmap_id.
Qed.

(** X2: the card at position [i] exists exactly when [i < 3] and the
    list has an entry [i]; it carries that entry, the entry's id as key,
    [i] as index, and priority only at position 0. *)
Theorem preview_card_at (dogs : list Dog.t) (i : nat) :
  preview_cards dogs !! i =
  if decide (i < 3)
  then (fun d => {| key := Dog.id d; dog := d; index := i;
                    priority := Nat.eqb i 0 |}) <$> dogs !! i
  else None.
Proof.
  unfold preview_cards. rewrite list_lookup_imap.
  case_decide as Hi.
  - by rewrite lookup_take_lt.
  - by rewrite lookup_take_ge by lia.
Qed.

Lemma preview_cards_keys (dogs : list Dog.t) :
  key <$> preview_cards dogs = take 3 (Dog.id <$> dogs).
Proof.
  unfold preview_cards. rewrite fmap_imap, <- fmap_take.
  change (imap (const Dog.id) (take 3 dogs) = Dog.id <$> take 3 dogs).
  apply imap_const.
Qed.

(** X3: when the preview dogs have pairwise distinct ids, the rendered
    cards have pairwise distinct list keys. *)
Theorem preview_keys_distinct (dogs : list Dog.t) :
  NoDup (Dog.id <$> dogs) -> NoDup (key <$> preview_cards dogs).
Proof.
  intros Hids. rewrite preview_cards_keys.
  rewrite <- (take_drop 3 (Dog.id <$> dogs)) in Hids.
  by apply NoDup_app in Hids as [Htake _].
Qed.

Lemma preview_keys_distinct_witness :
  NoDup (key <$> preview_cards
           [ {| Dog.id := 11; Dog.fields := [] |};
             {| Dog.id := 12; Dog.fields := [] |};
             {| Dog.id := 13; Dog.fields := [] |};
             {| Dog.id := 14; Dog.fields := [] |} ]).
Proof.
  apply (preview_keys_distinct
           [ {| Dog.id := 11; Dog.fields := [] |};
             {| Dog.id := 12; Dog.fields := [] |};
             {| Dog.id := 13; Dog.fields := [] |};
             {| Dog.id := 14; Dog.fields := [] |} ]).
  by apply (bool_decide_unpack _).
Defined.

(** X4: the preview area is the link to the listing exactly for the
    empty list; any non-empty list, however short, gives cards. *)
Theorem preview_area_fallback_iff_empty (dogs : list Dog.t) :
  (preview_area dogs = BrowseAll gallery_link <-> dogs = []) /\
  (dogs <> [] -> preview_area dogs = PreviewCards (preview_cards dogs) /\
                 preview_cards dogs <> []).
Proof.
  unfold preview_area. destruct dogs as [|d dogs]; simpl.
  - split; [done|]. by intros [].
  - split; [split; discriminate|]. by intros _.
Qed.

(** ** Runs of the component *)

Lemma tally_app (f : Effect -> bool) (l k : list Effect) :
  tally f (l ++ k) = tally f l + tally f k.
Proof. unfold tally. by rewrite filter_app, length_app. Qed.

(** The three shapes a step can take: the part of [fetchStatistics]
    before the [await] (a click, or props that withdraw the statistics),
    its continuation for a pending request, or new props alone. *)
Lemma step_cases (e : Event) (c c' : Component) :
  step e c = Some c' ->
  (exists p, c' = exec fetchStatistics_call (with_props p c) /\
             is_rejection e = false /\ is_resolution e = false) \/
  (exists o n, e = Settle o /\ pending c = S n /\
               c' = exec (fetchStatistics_resume o) (settled c n)) \/
  (exists p, e = Rerender p /\ c' = with_props p c).
Proof.
  destruct e as [|o|p]; simpl.
  - destruct (view_of c) as [v|]; [|discriminate].
    destruct (retry_control v) as [[]|]; [|discriminate].
    intros [= <-]. left. exists (props c). by destruct c.
  - destruct (pending c) as [|n] eqn:Hn; [discriminate|].
    intros [= <-]. right; left. by exists o, n.
  - intros [= <-]. unfold exec, rerender, useEffect; simpl.
    destruct (deps_changed _ _); [|right; right; by exists p].
    destruct (negb _); [left; by exists p|right; right; by exists p].
Qed.

Lemma run_app (evs evs' : list Event) (c : Component) :
  run (evs ++ evs') c = run evs c ≫= run evs'.
Proof.
  revert c. induction evs as [|e evs IH]; intros c; simpl; [done|].
  destruct (step e c); simpl; [apply IH|done].
Qed.

(** A property kept by every step holds along every run. *)
Lemma run_invariant (P : Component -> Prop) :
  (forall e c c', P c -> step e c = Some c' -> P c') ->
  forall evs c c', P c -> run evs c = Some c' -> P c'.
Proof.
  intros Hstep. induction evs as [|e evs IH]; simpl; intros c c' Hc Hrun.
  - by injection Hrun as <-.
  - destruct (step e c) as [c1|] eqn:He; [|discriminate].
    eapply IH; [|exact Hrun]. by eapply Hstep.
Qed.

Lemma busy_step (e : Event) (c c' : Component) :
  busy c -> step e c = Some c' -> busy c'.
Proof.
  intros Hc [(p & -> & _)|[(o & n & _ & _ & ->)|(p & _ & ->)]]%step_cases.
  - rewrite exec_call. intros _; simpl. lia.
  - destruct o; [rewrite exec_resume_resolved|rewrite exec_resume_rejected];
      intros Hl; simpl in Hl; discriminate.
  - exact Hc.
Qed.

Lemma busy_mount (p : Props) : busy (mount p).
Proof.
  rewrite mount_cases. destruct (initialStatistics p) as [s|] eqn:Hinit.
  - intros Hl; simpl in Hl. by rewrite Hinit in Hl.
  - rewrite exec_call. intros _; simpl. lia.
Qed.

Lemma requests_tally (c : Component) :
  requests c = tally is_request (log c).
Proof. reflexivity. Qed.

Lemma tally_nil (f : Effect -> bool) : tally f [] = 0.
Proof. reflexivity. Qed.

Lemma tally_cons (f : Effect -> bool) (e : Effect) (l : list Effect) :
  tally f (e :: l) = (if f e then 1 else 0) + tally f l.
Proof.
  unfold tally. destruct (f e) eqn:He.
  - by rewrite filter_cons_True.
  - rewrite filter_cons_False; [done|]. by rewrite He.
Qed.

Lemma tally_call (f : Effect -> bool) (c : Component) :
  tally f (log (exec fetchStatistics_call c)) =
  tally f (log c) + tally f [SetLoading true; SetError None; GetStatistics].
Proof. rewrite exec_call; simpl. apply tally_app. Qed.

Lemma tally_resume (f : Effect -> bool) (o : Outcome) (c : Component) (n : nat) :
  tally f (log (exec (fetchStatistics_resume o) (settled c n))) =
  tally f (log c) +
  tally f match o with
          | Resolved stats => [SetStatistics (Some stats); SetLoading false]
          | Rejected err =>
              [ReportError error_label [("error", message err)];
               SetError (Some error_message); SetLoading false]
          end.
Proof.
  destruct o; [rewrite exec_resume_resolved|rewrite exec_resume_rejected];
    simpl; apply tally_app.
Qed.

Lemma accounted_step (e : Event) (c c' : Component) :
  accounted c -> step e c = Some c' -> accounted c'.
Proof.
  unfold accounted.
  intros Hc [(p & -> & _)|[(o & n & _ & Hn & ->)|(p & _ & ->)]]%step_cases.
  - rewrite !tally_call, exec_call; simpl in *. rewrite Hc.
    change (tally is_request [SetLoading true; SetError None; GetStatistics])
      with 1.
    change (tally is_answer [SetLoading true; SetError None; GetStatistics])
      with 0.
    lia.
  - rewrite !tally_resume, Hc, Hn.
    assert (pending (exec (fetchStatistics_resume o) (settled c n)) = n) as ->.
    { by destruct o;
        [rewrite exec_resume_resolved|rewrite exec_resume_rejected]. }
    destruct o; rewrite !tally_cons, !tally_nil; simpl; lia.
  - exact Hc.
Qed.

Lemma accounted_mount (p : Props) : accounted (mount p).
Proof.
  rewrite mount_cases. destruct (initialStatistics p); by vm_compute.
Qed.

Lemma reachable_invariant (P : Component -> Prop) (p : Props) :
  P (mount p) ->
  (forall e c c', P c -> step e c = Some c' -> P c') ->
  forall c, reachable p c -> P c.
Proof.
  intros Hmount Hstep c [evs Hrun].
  by eapply (run_invariant P Hstep evs (mount p)).
Qed.

Lemma reachable_busy (p : Props) (c : Component) : reachable p c -> busy c.
Proof.
  apply (reachable_invariant busy); [apply busy_mount|apply busy_step].
Qed.

(** X5: every loading placeholder on screen has its request.  In every
    component reachable from the mount, [loading] true means that a
    request is pending.  The one placeholder shown with nothing in flight
    is the first render, before the effect has run: nothing has been sent
    then, and the effect that follows sends the request.  In both cases
    no error is held and the placeholder is alone in the column. *)
Theorem loading_means_request_in_flight (p : Props) (c : Component) :
  displayed p c ->
  loading (ui c) = true ->
  error (ui c) = None /\
  view_of c = Ok {| cta := cta_links; column := [LoadingPlaceholder] |} /\
  (0 < pending c \/
   (c = first_render p /\ pending c = 0 /\ requests c = 0 /\
    pending (mount p) = 1 /\ requests (mount p) = 1)).
Proof.
  intros [->|Hc] Hload.
  - simpl in Hload. destruct (initialStatistics p) as [s|] eqn:Hinit;
      [discriminate|].
    split; [done|]. split.
    + unfold view_of, render, loading_block, error_block.
      rewrite success_block_guard; simpl. by rewrite Hinit.
    + right. rewrite mount_cases, Hinit. by repeat split.
  - pose proof (reachable_busy p c Hc Hload) as Hpend.
    apply reachable_consistent in Hc.
    destruct (consistent_one_panel (props c) (ui c) Hc)
      as (panel & Hview & Hp).
    destruct Hc as [[Hnone|[_ Hfalse]] _]; [|congruence].
    split; [exact Hnone|]. split; [|by left].
    unfold view_of. rewrite Hview.
    destruct panel as [|shown h|counters preview]; [done| |];
      destruct Hp as [Hfalse _]; congruence.
Qed.

Lemma loading_means_request_in_flight_witness :
  (0 < pending (mount default_props) \/
   (mount default_props = first_render default_props /\
    pending (mount default_props) = 0 /\
    requests (mount default_props) = 0 /\
    pending (mount default_props) = 1 /\
    requests (mount default_props) = 1)) /\
  (0 < pending (first_render default_props) \/
   (first_render default_props = first_render default_props /\
    pending (first_render default_props) = 0 /\
    requests (first_render default_props) = 0 /\
    pending (mount default_props) = 1 /\
    requests (mount default_props) = 1)).
Proof.
  split.
  - apply (loading_means_request_in_flight default_props
             (mount default_props)); [right; by exists []|reflexivity].
  - apply (loading_means_request_in_flight default_props
             (first_render default_props)); [by left|reflexivity].
Defined.

(** X6: every request sent is either still pending or was answered by
    one run of the [finally] block: in every reachable component the
    number of requests is the number pending plus the number of
    [setLoading(false)] calls. *)
Theorem requests_are_accounted_for (p : Props) (c : Component) :
  reachable p c -> requests c = pending c + answered c.
Proof.
  apply (reachable_invariant accounted);
    [apply accounted_mount|apply accounted_step].
Qed.

Lemma requests_are_accounted_for_witness :
  requests (mount default_props) =
  pending (mount default_props) + answered (mount default_props).
Proof.
  apply (requests_are_accounted_for default_props). by exists [].
Defined.

Lemma step_tallies (e : Event) (c c' : Component) :
  step e c = Some c' ->
  reports c' = reports c + (if is_rejection e then 1 else 0) /\
  stores c' = stores c + (if is_resolution e then 1 else 0).
Proof.
  unfold reports, stores.
  intros [(p & -> & -> & ->)|[(o & n & -> & _ & ->)|(p & -> & ->)]]%step_cases.
  - rewrite !tally_call, !tally_cons; change (tally _ []) with 0; simpl. lia.
  - rewrite !tally_resume.
    destruct o; rewrite !tally_cons, !tally_nil; simpl; lia.
  - simpl. lia.
Qed.

(** X7: along any run, the error reporter is called once for each
    rejected request and [setStatistics] once for each resolved one;
    clicks and new props call neither. *)
Theorem one_report_per_rejection (evs : list Event) (c c' : Component) :
  run evs c = Some c' ->
  reports c' = reports c + rejections evs /\
  stores c' = stores c + resolutions evs.
Proof.
  revert c. induction evs as [|e evs IH]; simpl; intros c Hrun.
  - injection Hrun as <-. unfold rejections, resolutions; simpl. lia.
  - destruct (step e c) as [c1|] eqn:He; [|discriminate].
    apply step_tallies in He as [Hr Hs]. apply IH in Hrun as [Hr' Hs'].
    rewrite Hr', Hs', Hr, Hs. unfold rejections, resolutions.
    destruct e as [|[stats|err]|q]; simpl;
      rewrite ?filter_cons_True, ?filter_cons_False by done; simpl; lia.
Qed.

Lemma one_report_per_rejection_witness :
  exists c',
    run [ Settle (Rejected {| name := "Error"; message := "HTTP 500" |});
          ClickTryAgain;
          Settle (Resolved {| total_dogs := 412; total_organizations := 9;
                              countries := ["CA"] |}) ]
        (mount default_props) = Some c' /\
    reports c' = 1 /\ stores c' = 1.
Proof.
  destruct (run [ Settle (Rejected {| name := "Error";
                                      message := "HTTP 500" |});
                  ClickTryAgain;
                  Settle (Resolved {| total_dogs := 412;
                                      total_organizations := 9;
                                      countries := ["CA"] |}) ]
                (mount default_props)) as [c'|] eqn:Hrun;
    [|vm_compute in Hrun; discriminate Hrun].
  exists c'. split; [reflexivity|].
  exact (one_report_per_rejection _ _ _ Hrun).
Defined.

(** ** New props *)

Lemma exec_rerender (p' : Props) (c : Component) :
  exec (rerender p') c =
  if truthy (initialStatistics (props c)) &&
     negb (truthy (initialStatistics p'))
  then exec fetchStatistics_call (with_props p' c)
  else with_props p' c.
Proof.
  unfold exec, rerender, deps_changed, useEffect; simpl.
  by destruct (initialStatistics (props c)), (initialStatistics p').
Qed.

(** X8: a re-render with new props never replaces the stored
    statistics: [useState] takes [initialStatistics] at the first render
    only.  It sends a request exactly when the props withdraw statistics
    that were supplied before (then [loading] is set and the error
    cleared); otherwise the three cells, the log and the pending requests
    are untouched. *)
Theorem rerender_keeps_stored_statistics (p' : Props) (c : Component) :
  exists c',
    step (Rerender p') c = Some c' /\
    props c' = p' /\
    statistics (ui c') = statistics (ui c) /\
    if truthy (initialStatistics (props c)) &&
       negb (truthy (initialStatistics p'))
    then loading (ui c') = true /\ error (ui c') = None /\
         requests c' = S (requests c) /\ pending c' = S (pending c)
    else ui c' = ui c /\ log c' = log c /\ pending c' = pending c.
Proof.
  exists (exec (rerender p') c). split; [reflexivity|].
  rewrite exec_rerender.
  destruct (truthy (initialStatistics (props c)) &&
            negb (truthy (initialStatistics p'))).
  - by rewrite requests_call, exec_call.
  - done.
Qed.

(** ** Retrying and settling *)

Lemma retry_enabled (c : Component) :
  step ClickTryAgain c =
  if truthy_str (error (ui c))
  then Some (exec fetchStatistics_call c)
  else None.
Proof.
  unfold step, view_of.
  destruct (render_column (props c) (ui c)) as (success & Hs & ->).
  rewrite success_block_guard in Hs.
  unfold retry_control, loading_block, error_block; simpl.
  destruct (statistics (ui c)) as [s|], (loading (ui c)),
           (error (ui c)) as [msg|];
    simpl in *; try destruct (String.eqb msg ""); simpl in *;
    by injection Hs as <-.
Qed.

(** X9: the retry button can be pressed exactly when a non-empty
    message is held in [error].  While loading, and in the success view, a
    click on it is impossible, so the user cannot start a second request
    from there. *)
Theorem retry_only_from_failure (p : Props) (c : Component) :
  reachable p c ->
  (is_Some (step ClickTryAgain c) <-> error (ui c) <> None) /\
  (loading (ui c) = true -> step ClickTryAgain c = None).
Proof.
  intros Hc. rewrite retry_enabled.
  destruct (reachable_consistent p c Hc) as [[Hnone|[Hmsg Hload]] _].
  - rewrite Hnone; simpl. split; [|done].
    split; [by intros [? ?]|by intros []].
  - rewrite Hmsg, Hload; simpl. split; [|done].
    split; [done|by eexists].
Qed.

Lemma retry_only_from_failure_witness :
  (is_Some (step ClickTryAgain (mount default_props)) <->
   error (ui (mount default_props)) <> None) /\
  (loading (ui (mount default_props)) = true ->
   step ClickTryAgain (mount default_props) = None).
Proof.
  apply (retry_only_from_failure default_props). by exists [].
Defined.

Lemma retry_cycle (err : JsError) (c : Component) (stats : option Statistics) :
  ui c = {| statistics := stats; loading := true; error := None |} ->
  pending c = 1 ->
  exists c',
    run [Settle (Rejected err); ClickTryAgain] c = Some c' /\
    ui c' = {| statistics := stats; loading := true; error := None |} /\
    pending c' = 1 /\
    requests c' = S (requests c) /\
    reports c' = S (reports c).
Proof.
  intros Hui Hpend.
  assert (step (Settle (Rejected err)) c =
          Some (exec (fetchStatistics_resume (Rejected err)) (settled c 0)))
    as Hfail by (simpl; by rewrite Hpend).
  cbn [run]. rewrite Hfail, retry_enabled, exec_resume_rejected.
  cbn [ui error truthy_str String.eqb error_message negb].
  eexists. split; [reflexivity|].
  rewrite requests_call, exec_call; simpl. rewrite Hui; simpl.
  split; [done|]. split; [done|].
  rewrite !requests_tally. unfold reports; cbn [log].
  rewrite !tally_app, !tally_cons, !tally_nil.
  simpl. split; lia.
Qed.

(** X10: retrying is unlimited.  Mounted without statistics, the
    component lets the user retry after each of any number of failures;
    after [n] failures and [n] retries it is loading again, has sent
    [n + 1] requests and reported [n] errors. *)
Theorem retry_is_unlimited (dogs : list Dog.t) (errs : list JsError) :
  exists c,
    run (retry_after_each errs)
        (mount {| initialStatistics := None; previewDogs := dogs |}) = Some c /\
    ui c = {| statistics := None; loading := true; error := None |} /\
    pending c = 1 /\
    requests c = S (length errs) /\
    reports c = length errs.
Proof.
  assert (forall c0 : Component,
    ui c0 = {| statistics := None; loading := true; error := None |} ->
    pending c0 = 1 ->
    exists c, run (retry_after_each errs) c0 = Some c /\
      ui c = {| statistics := None; loading := true; error := None |} /\
      pending c = 1 /\
      requests c = requests c0 + length errs /\
      reports c = reports c0 + length errs) as Hgen.
  { induction errs as [|err errs IH]; intros c0 Hui Hpend.
    - exists c0. simpl. repeat split; try done; lia.
    - destruct (retry_cycle err c0 None Hui Hpend)
        as (c1 & Hrun1 & Hui1 & Hpend1 & Hreq1 & Hrep1).
      destruct (IH c1 Hui1 Hpend1) as (c & Hrun & Hui' & Hpend' & Hreq & Hrep).
      exists c. split.
      + change (retry_after_each (err :: errs))
          with ([Settle (Rejected err); ClickTryAgain] ++ retry_after_each errs).
        by rewrite run_app, Hrun1.
      + split; [done|]. split; [done|]. simpl. lia. }
  destruct (Hgen (mount {| initialStatistics := None; previewDogs := dogs |}))
    as (c & Hrun & Hui & Hpend & Hreq & Hrep); [done|done|].
  exists c. split; [exact Hrun|]. split; [exact Hui|]. split; [exact Hpend|].
  split; [exact Hreq|exact Hrep].
Qed.

(** X11: the message of the error itself never reaches the user.  In
    every reachable component [error] is null or the fixed message, and
    an error panel in the view shows the fixed message. *)
Theorem only_fixed_message_is_shown (p : Props) (c : Component) :
  reachable p c ->
  (error (ui c) = None \/
   error (ui c) = Some "Unable to load statistics. Please try again later.") /\
  forall v shown h,
    view_of c = Ok v -> ErrorPanel shown h ∈ column v ->
    shown = "Unable to load statistics. Please try again later.".
Proof.
  intros Hc%reachable_consistent.
  split; [destruct Hc as [[?|[? _]] _]; [by left|by right]|].
  intros v shown h Hv Hin.
  destruct (consistent_one_panel (props c) (ui c) Hc) as (panel & Hview & Hp).
  unfold view_of in Hv. rewrite Hview in Hv. injection Hv as <-.
  simpl in Hin. apply list_elem_of_singleton in Hin as <-.
  by destruct Hp as (_ & _ & ->).
Qed.

Lemma only_fixed_message_is_shown_witness :
  exists c,
    step (Settle (Rejected {| name := "Error";
                              message := "connect ECONNREFUSED 10.0.0.7" |}))
         (mount default_props) = Some c /\
    error (ui c) = Some "Unable to load statistics. Please try again later.".
Proof.
  eexists. split; [reflexivity|].
  destruct (only_fixed_message_is_shown default_props
    (exec (fetchStatistics_resume
             (Rejected {| name := "Error";
                          message := "connect ECONNREFUSED 10.0.0.7" |}))
          (settled (mount default_props) 0))) as [[Hnone|Hmsg] _].
  - by exists [Settle (Rejected {| name := "Error";
                                   message := "connect ECONNREFUSED 10.0.0.7" |})].
  - discriminate Hnone.
  - exact Hmsg.
Defined.

(** X12: from any reachable loading state, a resolved request leads to
    the success view: the counters of the statistics just received, and
    the preview area of the current props. *)
Theorem resolved_request_shows_success
        (p : Props) (c : Component) (stats : Statistics) :
  reachable p c ->
  loading (ui c) = true ->
  exists c',
    step (Settle (Resolved stats)) c = Some c' /\
    ui c' = {| statistics := Some stats; loading := false; error := None |} /\
    view_of c' =
      Ok {| cta := cta_links;
            column :=
              [SuccessPanel
                 [ {| value := total_dogs stats; label := "Dogs need homes" |};
                   {| value := total_organizations stats;
                      label := "Rescue Organizations" |};
                   {| value := Z.of_nat (length (countries stats));
                      label := "Countries" |} ]
                 (preview_area (previewDogs (props c)))] |}.
Proof.
  intros Hc Hload.
  pose proof (reachable_busy p c Hc Hload) as Hpend.
  assert (error (ui c) = None) as Hnone.
  { destruct (reachable_consistent p c Hc) as [[?|[_ ?]] _]; congruence. }
  unfold step. destruct (pending c) as [|n]; [lia|].
  eexists. split; [reflexivity|].
  rewrite exec_resume_resolved; simpl. rewrite Hnone. by split.
Qed.

Lemma resolved_request_shows_success_witness :
  exists c',
    step (Settle (Resolved {| total_dogs := 412; total_organizations := 9;
                              countries := ["CA"; "TR"] |}))
         (mount default_props) = Some c' /\
    ui c' = {| statistics :=
                 Some {| total_dogs := 412; total_organizations := 9;
                         countries := ["CA"; "TR"] |};
               loading := false; error := None |}.
Proof.
  edestruct (resolved_request_shows_success default_props
               (mount default_props)
               {| total_dogs := 412; total_organizations := 9;
                  countries := ["CA"; "TR"] |})
    as (c' & Hstep & Hui & _); [by exists []|reflexivity|].
  exists c'. by split.
Defined.

(** X13: a resolved request stores its statistics but does not clear an
    error: if a message is held when the response arrives (an earlier,
    overlapping request was rejected), the view stays the error panel and
    the statistics just stored are not shown. *)
Theorem success_does_not_clear_error
        (c : Component) (stats : Statistics) (msg : string) :
  error (ui c) = Some msg ->
  msg <> "" ->
  0 < pending c ->
  exists c',
    step (Settle (Resolved stats)) c = Some c' /\
    statistics (ui c') = Some stats /\
    error (ui c') = Some msg /\
    view_of c' = Ok {| cta := cta_links;
                       column := [ErrorPanel msg FetchStatistics] |}.
Proof.
  intros Herr Hmsg Hpend.
  unfold step. destruct (pending c) as [|n]; [lia|].
  eexists. split; [reflexivity|].
  rewrite exec_resume_resolved; simpl. rewrite Herr.
  split; [done|]. split; [done|].
  unfold view_of, render; rewrite success_block_guard; simpl.
  unfold error_block; simpl.
  apply String.eqb_neq in Hmsg. by rewrite Hmsg.
Qed.

Lemma success_does_not_clear_error_witness :
  exists c c',
    run [ Rerender {| initialStatistics :=
                        Some {| total_dogs := 1; total_organizations := 1;
                                countries := [] |};
                      previewDogs := [] |};
          Rerender default_props;
          Settle (Rejected {| name := "Error"; message := "HTTP 500" |}) ]
        (mount default_props) = Some c /\
    step (Settle (Resolved {| total_dogs := 412; total_organizations := 9;
                              countries := ["CA"] |})) c = Some c' /\
    view_of c' =
      Ok {| cta := cta_links;
            column := [ErrorPanel error_message FetchStatistics] |}.
Proof.
  eexists.
  edestruct (success_does_not_clear_error
    (exec (fetchStatistics_resume
             (Rejected {| name := "Error"; message := "HTTP 500" |}))
          (settled
             (exec (rerender default_props)
                (exec (rerender
                         {| initialStatistics :=
                              Some {| total_dogs := 1;
                                      total_organizations := 1;
                                      countries := [] |};
                            previewDogs := [] |})
                      (mount default_props))) 1))
    {| total_dogs := 412; total_organizations := 9; countries := ["CA"] |}
    error_message) as (c' & Hstep & _ & _ & Hview);
    [reflexivity|discriminate|simpl; lia|].
  exists c'. split; [reflexivity|]. by split.
Defined.

Lemma settle_all (os : list Outcome) :
  forall c,
    length os = pending c ->
    exists c',
      run (Settle <$> os) c = Some c' /\
      pending c' = 0 /\
      requests c' = requests c /\
      (os <> [] -> loading (ui c') = false) /\
      (os = [] -> c' = c).
Proof.
  induction os as [|o os IH]; intros c Hlen; simpl in *.
  - exists c. by repeat split.
  - destruct (pending c) as [|n] eqn:Hn; [discriminate|].
    injection Hlen as Hlen.
    destruct (IH (exec (fetchStatistics_resume o) (settled c n)))
      as (c' & Hrun & Hpend & Hreq & Hload & Hsame).
    { by destruct o;
        [rewrite exec_resume_resolved|rewrite exec_resume_rejected]. }
    exists c'. split; [exact Hrun|]. split; [exact Hpend|].
    split; [by rewrite Hreq, requests_resume|].
    split; [|discriminate]. intros _.
    destruct os as [|o' os]; [|by apply Hload].
    rewrite (Hsame eq_refl).
    by destruct o; [rewrite exec_resume_resolved|rewrite exec_resume_rejected].
Qed.

(** X14: once every pending request has been answered, in any order
    and with any outcomes, the component is not loading: it shows the
    error panel or the success panel, no further outcome can arrive, and
    answering sent no request of its own. *)
Theorem all_answered_leaves_loading
        (p : Props) (c : Component) (os : list Outcome) :
  reachable p c ->
  length os = pending c ->
  exists c',
    run (Settle <$> os) c = Some c' /\
    pending c' = 0 /\
    loading (ui c') = false /\
    requests c' = requests c /\
    (forall o, step (Settle o) c' = None) /\
    exists panel,
      view_of c' = Ok {| cta := cta_links; column := [panel] |} /\
      panel <> LoadingPlaceholder.
Proof.
  intros Hc Hlen.
  destruct (settle_all os c Hlen) as (c' & Hrun & Hpend & Hreq & Hload & Hsame).
  assert (loading (ui c') = false) as Hidle.
  { destruct os as [|o os]; [|by apply Hload].
    rewrite (Hsame eq_refl). pose proof (reachable_busy p c Hc) as Hbusy.
    unfold busy in Hbusy. simpl in Hlen.
    destruct (loading (ui c)); [|done]. specialize (Hbusy eq_refl). lia. }
  assert (consistent (ui c')) as Hcons.
  { eapply consistent_run; [|exact Hrun]. by eapply reachable_consistent. }
  exists c'. split; [exact Hrun|]. split; [exact Hpend|].
  split; [exact Hidle|]. split; [exact Hreq|].
  split; [intros o; simpl; by rewrite Hpend|].
  destruct (consistent_one_panel (props c') (ui c') Hcons)
    as (panel & Hview & Hp).
  exists panel. split; [exact Hview|].
  intros ->. congruence.
Qed.

Lemma all_answered_leaves_loading_witness :
  exists c',
    run [ Settle (Rejected {| name := "Error"; message := "HTTP 500" |}) ]
        (mount default_props) = Some c' /\
    pending c' = 0 /\ loading (ui c') = false.
Proof.
  destruct (all_answered_leaves_loading default_props (mount default_props)
              [Rejected {| name := "Error"; message := "HTTP 500" |}])
    as (c' & Hrun & Hpend & Hidle & _); [by exists []|reflexivity|].
  exists c'. by split.
Defined.

(** Case analysis of membership in a list that is written out. *)
Ltac members H :=
  repeat (apply elem_of_cons in H as [H|H];
          [try discriminate H; try (injection H as -> ->)|]);
  try (by apply elem_of_nil in H).

(** X15: the guard of the success panel makes it exclusive in every
    state of the three cells, reachable or not: a view that contains the
    success panel contains nothing else in the column.  The placeholder
    and the error panel have no such guard against each other. *)
Theorem success_panel_stands_alone (p : Props) (st : State) :
  exists v,
    render p st = Ok v /\
    (forall counters preview,
        SuccessPanel counters preview ∈ column v ->
        column v = [SuccessPanel counters preview]) /\
    (loading st = true -> truthy_str (error st) = true ->
     exists msg, column v = [LoadingPlaceholder; ErrorPanel msg FetchStatistics]).
Proof.
  destruct (render_column p st) as (success & Hs & ->).
  eexists. split; [reflexivity|].
  rewrite success_block_guard in Hs. simpl.
  unfold loading_block, error_block.
  destruct (statistics st) as [s|], (loading st), (error st) as [msg|];
    simpl in *; try destruct (String.eqb msg ""); simpl in *;
    injection Hs as <-; simpl;
    (split; [intros counters preview Hin; by members Hin|]);
    intros; try done; by eexists.
Qed.
